(** * nextjs-centralized-error-handler: a shallow embedding of
    [src/customErrors.js] and [src/errorHandler.js].

    JavaScript values are modelled by [jsval]; numbers are integers ([Z]),
    which covers every status code the library handles.  A thrown value
    that is an object carries the class it was constructed from (its
    prototype chain is the chain of [cls] parents) and the properties that
    a property read finds on it, own or inherited. *)

From Stdlib Require Import String ZArith List Bool Lia.
Import ListNotations.
Open Scope string_scope.

(** ** JavaScript values *)

(** Classes on a prototype chain: the built-in [Error], the library's
    [CustomError], and any class declared with [class X extends P]. *)
Inductive cls : Type :=
| CError
| CCustomError
| CSub (ident : string) (parent : cls).

Set Warnings "-register-all".
Inductive jsval : Type :=
| JUndefined
| JNull
| JBool (b : bool)
| JNum (z : Z)
| JStr (s : string)
(** an object: [None] is a plain object (prototype [Object.prototype]) *)
| JObj (proto : option cls) (props : list (string * jsval))
(** a Fetch [Response]: status, header list, body ([None] is a null
    body; [Some v] is the text [JSON.stringify(v)]) *)
| JResponse (status : Z) (headers : list (string * string)) (body : option jsval).

Fixpoint assoc (k : string) (l : list (string * jsval)) : jsval :=
  match l with
  | [] => JUndefined
  | (k', v) :: t => if String.eqb k k' then v else assoc k t
  end.

(** [v[k]]: reading a property of [undefined] or [null] throws a
    [TypeError] ([None]); a primitive has none of the properties the
    library reads ([name], [message], [statusCode]). *)
Definition get_prop (v : jsval) (k : string) : option jsval :=
  match v with
  | JUndefined | JNull => None
  | JObj _ props => Some (assoc k props)
  | _ => Some JUndefined
  end.

(** A property read on a value known to be an object. *)
Definition obj_prop (v : jsval) (k : string) : jsval :=
  match get_prop v k with Some x => x | None => JUndefined end.

(** JavaScript truthiness ([NaN], [-0] and [BigInt] are not modelled). *)
Definition truthy (v : jsval) : bool :=
  match v with
  | JUndefined | JNull => false
  | JBool b => b
  | JNum z => negb (Z.eqb z 0)
  | JStr s => negb (String.eqb s "")
  | JObj _ _ | JResponse _ _ _ => true
  end.

(** [a || b] *)
Definition js_or (a b : jsval) : jsval := if truthy a then a else b.

(** [v instanceof CustomError]: [CustomError.prototype] is on the chain. *)
Fixpoint cls_inherits_custom (c : cls) : bool :=
  match c with
  | CError => false
  | CCustomError => true
  | CSub _ p => cls_inherits_custom p
  end.

Definition instanceof_CustomError (v : jsval) : bool :=
  match v with
  | JObj (Some c) _ => cls_inherits_custom c
  | _ => false
  end.

(** The [TypeError] raised by reading a property of [null]/[undefined]. *)
Definition type_error (msg : string) : jsval :=
  JObj (Some (CSub "TypeError" CError))
       [("name", JStr "TypeError"); ("message", JStr msg)].

(** The [TypeError] of reading property [k] of [undefined] or [null]. *)
Definition read_error (v : jsval) (k : string) : jsval :=
  type_error ("Cannot read properties of " ++
              (match v with JUndefined => "undefined" | _ => "null" end) ++
              " (reading '" ++ k ++ "')").

Definition range_error (msg : string) : jsval :=
  JObj (Some (CSub "RangeError" CError))
       [("name", JStr "RangeError"); ("message", JStr msg)].

(** A plain [new Error(message)]: [name] is inherited from [Error.prototype]. *)
Definition new_Error (message : string) : jsval :=
  JObj (Some CError) [("message", JStr message); ("name", JStr "Error")].

(** ** src/customErrors.js *)

Module CustomErrors.

(** [constructor(message = 'An error occurred.', statusCode = 500,
    name = 'CustomError') { super(message); this.name = name;
    this.statusCode = statusCode; }], run for an object of class [c]
    (the class named by [new], [CustomError] or one of its subclasses).
    A message argument is a string or absent ([None]). *)
Definition CustomError_ctor (c : cls) (message : option string)
    (statusCode name : jsval) : jsval :=
  let message := match message with None => "An error occurred." | Some m => m end in
  let statusCode := match statusCode with JUndefined => JNum 500 | s => s end in
  let name := match name with JUndefined => JStr "CustomError" | n => n end in
  JObj (Some c) [("name", name); ("statusCode", statusCode); ("message", JStr message)].

(** [new CustomError(message, statusCode, name)] *)
Definition new_CustomError (message : option string) (statusCode name : jsval) : jsval :=
  CustomError_ctor CCustomError message statusCode name.

(** A predefined subclass: [class Ident extends CustomError {
    constructor(message = dflt) { super(message, status, name); } }]. *)
Definition predefined (ident dflt : string) (status : Z) (name : string)
    (message : option string) : jsval :=
  let message := match message with None => dflt | Some m => m end in
  CustomError_ctor (CSub ident CCustomError) (Some message) (JNum status) (JStr name).

Definition new_BadRequestError : option string -> jsval :=
  predefined "BadRequestError"
    "It seems there was an error with your request. Please check the data you entered and try again."
    400 "BadRequestError".

Definition new_UnauthorizedError : option string -> jsval :=
  predefined "UnauthorizedError"
    "Unauthorized access. Please log in again."
    401 "UnauthorizedError".

Definition new_PaymentRequiredError : option string -> jsval :=
  predefined "PaymentRequiredError"
    "Payment is required to access this resource."
    402 "PaymentRequiredError".

Definition new_ForbiddenError : option string -> jsval :=
  predefined "ForbiddenError"
    "Access denied."
    403 "ForbiddenError".

Definition new_NotFoundError : option string -> jsval :=
  predefined "NotFoundError"
    "The requested resource was not found."
    404 "NotFoundError".

Definition new_MethodNotAllowedError : option string -> jsval :=
  predefined "MethodNotAllowedError"
    "The HTTP method used is not allowed for this resource."
    405 "MethodNotAllowedError".

Definition new_NotAcceptableError : option string -> jsval :=
  predefined "NotAcceptableError"
    "The requested resource is not available in a format acceptable to your browser."
    406 "NotAcceptableError".

Definition new_RequestTimeoutError : option string -> jsval :=
  predefined "RequestTimeoutError"
    "The server timed out waiting for your request."
    408 "RequestTimeoutError".

Definition new_ConflictError : option string -> jsval :=
  predefined "ConflictError"
    "A conflict occurred with the current state of the resource."
    409 "ConflictError".

Definition new_PayloadTooLargeError : option string -> jsval :=
  predefined "PayloadTooLargeError"
    "The request payload is too large."
    413 "PayloadTooLargeError".

Definition new_TooManyRequestsError : option string -> jsval :=
  predefined "TooManyRequestsError"
    "You have made too many requests in a short period of time."
    429 "TooManyRequestsError".

Definition new_InternalServerError : option string -> jsval :=
  predefined "InternalServerError"
    "An internal server error occurred. Please try again later."
    500 "InternalServerError".

Definition new_NotImplementedError : option string -> jsval :=
  predefined "NotImplementedError"
    "This functionality has not been implemented."
    501 "NotImplementedError".

Definition new_BadGatewayError : option string -> jsval :=
  predefined "BadGatewayError"
    "Received an invalid response from the upstream server."
    502 "BadGatewayError".

Definition new_ServiceUnavailableError : option string -> jsval :=
  predefined "ServiceUnavailableError"
    "The service is currently unavailable."
    503 "ServiceUnavailableError".

Definition new_GatewayTimeoutError : option string -> jsval :=
  predefined "GatewayTimeoutError"
    "The upstream server failed to send a request in time."
    504 "GatewayTimeoutError".

Definition new_HTTPVersionNotSupportedError : option string -> jsval :=
  predefined "HTTPVersionNotSupportedError"
    "The server does not support the HTTP protocol version used in the request."
    505 "HTTPVersionNotSupportedError".

Definition new_VariantAlsoNegotiatesError : option string -> jsval :=
  predefined "VariantAlsoNegotiatesError"
    "Variant Also Negotiates."
    506 "VariantAlsoNegotiatesError".

Definition new_InsufficientStorageError : option string -> jsval :=
  predefined "InsufficientStorageError"
    "The server is unable to store the representation needed to complete the request."
    507 "InsufficientStorageError".

Definition new_BandwidthLimitExceededError : option string -> jsval :=
  predefined "BandwidthLimitExceededError"
    "Bandwidth limit exceeded."
    509 "BandwidthLimitExceededError".

Definition new_NetworkAuthenticationRequiredError : option string -> jsval :=
  predefined "NetworkAuthenticationRequiredError"
    "Network authentication is required to access this resource."
    511 "NetworkAuthenticationRequiredError".

(** The 21 predefined subclasses. *)
Inductive kind : Type :=
| KBadRequestError
| KUnauthorizedError
| KPaymentRequiredError
| KForbiddenError
| KNotFoundError
| KMethodNotAllowedError
| KNotAcceptableError
| KRequestTimeoutError
| KConflictError
| KPayloadTooLargeError
| KTooManyRequestsError
| KInternalServerError
| KNotImplementedError
| KBadGatewayError
| KServiceUnavailableError
| KGatewayTimeoutError
| KHTTPVersionNotSupportedError
| KVariantAlsoNegotiatesError
| KInsufficientStorageError
| KBandwidthLimitExceededError
| KNetworkAuthenticationRequiredError.

Definition all_kinds : list kind :=
  [KBadRequestError; KUnauthorizedError; KPaymentRequiredError; KForbiddenError; KNotFoundError; KMethodNotAllowedError; KNotAcceptableError; KRequestTimeoutError; KConflictError; KPayloadTooLargeError; KTooManyRequestsError; KInternalServerError; KNotImplementedError; KBadGatewayError; KServiceUnavailableError; KGatewayTimeoutError; KHTTPVersionNotSupportedError; KVariantAlsoNegotiatesError; KInsufficientStorageError; KBandwidthLimitExceededError; KNetworkAuthenticationRequiredError].

(** [new K(message)] for each predefined subclass [K]. *)
Definition new_kind (k : kind) : option string -> jsval :=
  match k with
  | KBadRequestError => new_BadRequestError
  | KUnauthorizedError => new_UnauthorizedError
  | KPaymentRequiredError => new_PaymentRequiredError
  | KForbiddenError => new_ForbiddenError
  | KNotFoundError => new_NotFoundError
  | KMethodNotAllowedError => new_MethodNotAllowedError
  | KNotAcceptableError => new_NotAcceptableError
  | KRequestTimeoutError => new_RequestTimeoutError
  | KConflictError => new_ConflictError
  | KPayloadTooLargeError => new_PayloadTooLargeError
  | KTooManyRequestsError => new_TooManyRequestsError
  | KInternalServerError => new_InternalServerError
  | KNotImplementedError => new_NotImplementedError
  | KBadGatewayError => new_BadGatewayError
  | KServiceUnavailableError => new_ServiceUnavailableError
  | KGatewayTimeoutError => new_GatewayTimeoutError
  | KHTTPVersionNotSupportedError => new_HTTPVersionNotSupportedError
  | KVariantAlsoNegotiatesError => new_VariantAlsoNegotiatesError
  | KInsufficientStorageError => new_InsufficientStorageError
  | KBandwidthLimitExceededError => new_BandwidthLimitExceededError
  | KNetworkAuthenticationRequiredError => new_NetworkAuthenticationRequiredError
  end.

(** The identifier the class is declared with. *)
Definition kind_ident (k : kind) : string :=
  match k with
  | KBadRequestError => "BadRequestError"
  | KUnauthorizedError => "UnauthorizedError"
  | KPaymentRequiredError => "PaymentRequiredError"
  | KForbiddenError => "ForbiddenError"
  | KNotFoundError => "NotFoundError"
  | KMethodNotAllowedError => "MethodNotAllowedError"
  | KNotAcceptableError => "NotAcceptableError"
  | KRequestTimeoutError => "RequestTimeoutError"
  | KConflictError => "ConflictError"
  | KPayloadTooLargeError => "PayloadTooLargeError"
  | KTooManyRequestsError => "TooManyRequestsError"
  | KInternalServerError => "InternalServerError"
  | KNotImplementedError => "NotImplementedError"
  | KBadGatewayError => "BadGatewayError"
  | KServiceUnavailableError => "ServiceUnavailableError"
  | KGatewayTimeoutError => "GatewayTimeoutError"
  | KHTTPVersionNotSupportedError => "HTTPVersionNotSupportedError"
  | KVariantAlsoNegotiatesError => "VariantAlsoNegotiatesError"
  | KInsufficientStorageError => "InsufficientStorageError"
  | KBandwidthLimitExceededError => "BandwidthLimitExceededError"
  | KNetworkAuthenticationRequiredError => "NetworkAuthenticationRequiredError"
  end.

End CustomErrors.

(** The predefined subtype table of the spec (section 4.1): kind name,
    status and default message, written from the spec's table. *)
Definition spec_table (k : CustomErrors.kind) : string * Z * string :=
  match k with
  | CustomErrors.KBadRequestError => ("BadRequestError", 400%Z,
      "It seems there was an error with your request. Please check the data you entered and try again.")
  | CustomErrors.KUnauthorizedError => ("UnauthorizedError", 401%Z,
      "Unauthorized access. Please log in again.")
  | CustomErrors.KPaymentRequiredError => ("PaymentRequiredError", 402%Z,
      "Payment is required to access this resource.")
  | CustomErrors.KForbiddenError => ("ForbiddenError", 403%Z,
      "Access denied.")
  | CustomErrors.KNotFoundError => ("NotFoundError", 404%Z,
      "The requested resource was not found.")
  | CustomErrors.KMethodNotAllowedError => ("MethodNotAllowedError", 405%Z,
      "The HTTP method used is not allowed for this resource.")
  | CustomErrors.KNotAcceptableError => ("NotAcceptableError", 406%Z,
      "The requested resource is not available in a format acceptable to your browser.")
  | CustomErrors.KRequestTimeoutError => ("RequestTimeoutError", 408%Z,
      "The server timed out waiting for your request.")
  | CustomErrors.KConflictError => ("ConflictError", 409%Z,
      "A conflict occurred with the current state of the resource.")
  | CustomErrors.KPayloadTooLargeError => ("PayloadTooLargeError", 413%Z,
      "The request payload is too large.")
  | CustomErrors.KTooManyRequestsError => ("TooManyRequestsError", 429%Z,
      "You have made too many requests in a short period of time.")
  | CustomErrors.KInternalServerError => ("InternalServerError", 500%Z,
      "An internal server error occurred. Please try again later.")
  | CustomErrors.KNotImplementedError => ("NotImplementedError", 501%Z,
      "This functionality has not been implemented.")
  | CustomErrors.KBadGatewayError => ("BadGatewayError", 502%Z,
      "Received an invalid response from the upstream server.")
  | CustomErrors.KServiceUnavailableError => ("ServiceUnavailableError", 503%Z,
      "The service is currently unavailable.")
  | CustomErrors.KGatewayTimeoutError => ("GatewayTimeoutError", 504%Z,
      "The upstream server failed to send a request in time.")
  | CustomErrors.KHTTPVersionNotSupportedError => ("HTTPVersionNotSupportedError", 505%Z,
      "The server does not support the HTTP protocol version used in the request.")
  | CustomErrors.KVariantAlsoNegotiatesError => ("VariantAlsoNegotiatesError", 506%Z,
      "Variant Also Negotiates.")
  | CustomErrors.KInsufficientStorageError => ("InsufficientStorageError", 507%Z,
      "The server is unable to store the representation needed to complete the request.")
  | CustomErrors.KBandwidthLimitExceededError => ("BandwidthLimitExceededError", 509%Z,
      "Bandwidth limit exceeded.")
  | CustomErrors.KNetworkAuthenticationRequiredError => ("NetworkAuthenticationRequiredError", 511%Z,
      "Network authentication is required to access this resource.")
  end.

(** ** The Fetch [Response] constructor *)

Module Fetch.

(** Decimal digit strings, as [ToNumber] reads them; anything else reads
    as [NaN], which [unsigned short] turns into 0 (leading blanks, signs,
    exponents and hexadecimal literals are not modelled). *)
Fixpoint digits_value (s : string) (acc : Z) : option Z :=
  match s with
  | EmptyString => Some acc
  | String ch t =>
      let n := Z.of_nat (Ascii.nat_of_ascii ch) in
      if ((48 <=? n) && (n <=? 57))%Z
      then digits_value t (acc * 10 + (n - 48))%Z
      else None
  end.

(** WebIDL conversion of [init.status] to [unsigned short]; an
    [undefined] member is absent and takes the default 200. *)
Definition status_of_init (v : jsval) : Z :=
  match v with
  | JUndefined => 200
  | JNull => 0
  | JBool b => if b then 1 else 0
  | JNum z => z mod 65536
  | JStr s => match digits_value s 0 with Some z => z mod 65536 | None => 0 end
  | JObj _ _ | JResponse _ _ _ => 0
  end.

(** Statuses that admit no body: 101, 103, 204, 205, 304. *)
Definition null_body_status (s : Z) : bool :=
  Z.eqb s 101 || Z.eqb s 103 || Z.eqb s 204 || Z.eqb s 205 || Z.eqb s 304.

(** [new Response(body, { status, headers })]: a status outside
    200..599 throws a [RangeError]; a non-null body with a null-body status
    throws a [TypeError]. *)
Definition new_Response (body : option jsval) (status : jsval)
    (headers : list (string * string)) : jsval + jsval :=
  let s := status_of_init status in
  if negb ((200 <=? s) && (s <=? 599))%Z
  then inr (range_error "Response constructor: status must be in the range of 200 to 599, inclusive.")
  else match body with
       | Some _ =>
           if null_body_status s
           then inr (type_error "Response constructor: Invalid response status code")
           else inl (JResponse s headers body)
       | None => inl (JResponse s headers None)
       end.

(** [JSON.stringify(v)] as a response body: [undefined] gives
    [undefined], which [Response] takes as a null body. *)
Definition json_body (v : jsval) : option jsval :=
  match v with JUndefined => None | _ => Some v end.

End Fetch.

(** ** src/errorHandler.js *)

Module ErrorHandler.
Import Fetch.

(** The awaited result of calling a handler (or a [formatError]
    callback): a value, or a thrown / rejected value. *)
Inductive hresult : Type :=
| HReturn (v : jsval)
| HThrow (e : jsval).

(** The second argument of the wrapped handler: a response object whose
    [status] is a function, or any other value. *)
Inductive resarg : Type :=
| ResSink
| ResOther (v : jsval).

(** [options.logger]: absent ([console.error]), a non-function value, or a
    function; a function returns ([None]) or throws ([Some e]). *)
Inductive logger_opt : Type :=
| LoggerDefault
| LoggerNotFn (v : jsval)
| LoggerFn (f : string -> jsval -> option jsval).

(** [options.formatError]: a non-function value (the default is [null])
    or a function of [(error, req)]. *)
Inductive format_opt : Type :=
| FormatNotFn (v : jsval)
| FormatFn (f : jsval -> jsval -> hresult).

(** The options bag; [JUndefined] is an absent key. *)
Record options : Type := {
  logger : logger_opt;
  defaultStatusCode : jsval;
  defaultMessage : jsval;
  formatError : format_opt
}.

(** [options = {}] *)
Definition no_options : options :=
  {| logger := LoggerDefault; defaultStatusCode := JUndefined;
     defaultMessage := JUndefined; formatError := FormatNotFn JUndefined |}.

(** Calls made on the API Route response object. *)
Inductive sink_call : Type :=
| SStatus (code : jsval)
| SJson (body : jsval).

(** Calls made to [options.logger] and to [console.error]. *)
Inductive log_entry : Type :=
| LogCall (label : string) (v : jsval)
| ConsoleError (label : string) (v : jsval).

(** How the promise returned by the wrapped handler settles. *)
Inductive completion : Type :=
| Resolved (v : jsval)
| Rejected (e : jsval).

Record outcome : Type := {
  completes : completion;
  sink : list sink_call;
  logs : list log_entry
}.

(** A destructuring default: [= d] applies to [undefined] only. *)
Definition dflt (v d : jsval) : jsval :=
  match v with JUndefined => d | _ => v end.

(** [res && typeof res.status === 'function'] *)
Definition is_api_route (res : resarg) : bool :=
  match res with ResSink => true | ResOther _ => false end.

Definition DEFAULT_MESSAGE : string :=
  "An internal server error occurred. Please try again later.".

(** Lines 104-114: [statusCode] and [message] of the response. *)
Definition classify (error defaultStatusCode defaultMessage : jsval) : jsval * jsval :=
  if instanceof_CustomError error
  then (obj_prop error "statusCode", js_or (obj_prop error "message") defaultMessage)
  else (defaultStatusCode, defaultMessage).

(** Lines 95-102: the guarded logger call. *)
Definition invoke_logger (logger : logger_opt) (logMessage : string) (error : jsval)
    : list log_entry :=
  match logger with
  | LoggerDefault => [ConsoleError logMessage error]
  | LoggerNotFn _ => []
  | LoggerFn f =>
      LogCall logMessage error ::
        match f logMessage error with
        | None => []
        | Some loggerError => [ConsoleError "Logging failed:" loggerError]
        end
  end.

(** [{ error: { message, type } }] *)
Definition envelope (message type : jsval) : jsval :=
  JObj None [("error", JObj None [("message", message); ("type", type)])].

(** [{ message, type }] *)
Definition minimal_envelope (message type : jsval) : jsval :=
  JObj None [("message", message); ("type", type)].

Definition json_headers : list (string * string) :=
  [("Content-Type", "application/json")].

Definition mk (c : completion) (s : list sink_call) (l : list log_entry) : outcome :=
  {| completes := c; sink := s; logs := l |}.

Section Wrapped.

Variable opts : options.

Let logger := logger opts.
Let defaultStatusCode := dflt (defaultStatusCode opts) (JNum 500).
Let defaultMessage := dflt (defaultMessage opts) (JStr DEFAULT_MESSAGE).
Let formatError := formatError opts.

(** The [catch (error)] block, lines 84-158. *)
Definition catch_block (isApi : bool) (req error : jsval) : outcome :=
  let logMessage := if isApi then "API Route Error:" else "Route Error:" in
  let logs1 := invoke_logger logger logMessage error in
  let '(statusCode, message) := classify error defaultStatusCode defaultMessage in
  match get_prop error "name" with
  | None => mk (Rejected (read_error error "name")) [] logs1
  | Some name =>
      let type := js_or name (JStr "Error") in
      let '(errorResponse, logs2) :=
        match formatError with
        | FormatFn f =>
            match f error req with
            | HReturn r => (r, [])
            | HThrow formatErrorException =>
                (minimal_envelope message type,
                 [ConsoleError "formatError failed:" formatErrorException])
            end
        | FormatNotFn _ => (envelope message type, [])
        end in
      if isApi
      then mk (Resolved JUndefined) [SStatus statusCode; SJson errorResponse] (logs1 ++ logs2)
      else match new_Response (json_body errorResponse) statusCode json_headers with
           | inl r => mk (Resolved r) [] (logs1 ++ logs2)
           | inr ex => mk (Rejected ex) [] (logs1 ++ logs2)
           end
  end.

(** [errorHandler(handler, options)(req, res)] *)
Definition wrapped (handler : jsval -> resarg -> hresult) (req : jsval) (res : resarg)
    : outcome :=
  if is_api_route res
  then match handler req res with
       | HReturn _ => mk (Resolved JUndefined) [] []
       | HThrow error => catch_block true req error
       end
  else match handler req (ResOther JUndefined) with
       | HReturn response =>
           if truthy response then mk (Resolved response) [] []
           else match new_Response None (JNum 204) [] with
                | inl r => mk (Resolved r) [] []
                | inr ex => catch_block false req ex
                end
       | HThrow error => catch_block false req error
       end.

End Wrapped.

(** The second argument the original handler receives: [res] for an API
    Route, nothing ([undefined]) for the App Router. *)
Definition handler_args (res : resarg) : resarg :=
  if is_api_route res then res else ResOther JUndefined.

(** [options] with [logger] replaced. *)
Definition with_logger (o : options) (l : logger_opt) : options :=
  {| logger := l; defaultStatusCode := defaultStatusCode o;
     defaultMessage := defaultMessage o; formatError := formatError o |}.

(** Subclassing: [c] is [p] or declared (transitively) with [extends p]. *)
Inductive extends_star : cls -> cls -> Prop :=
| ext_refl : forall c, extends_star c c
| ext_step : forall ident p q, extends_star p q -> extends_star (CSub ident p) q.

Definition errorHandler (handler : jsval -> resarg -> hresult) (options : options)
    : jsval -> resarg -> outcome :=
  wrapped options handler.

End ErrorHandler.

(** ** Helpers for statements *)

(** The message a predefined error is reported with: its own message, or
    [defaultMessage] when that message is empty. *)
Definition reported_message (dmsg : string) (m : option string) (dm : jsval) : jsval :=
  match m with
  | None => JStr dmsg
  | Some s => if String.eqb s "" then dm else JStr s
  end.

(** * Properties *)

Import ErrorHandler.
Import Fetch.

(** ** Supporting lemmas *)

Lemma wrapped_throw : forall opts handler req res e,
  handler req (handler_args res) = HThrow e ->
  wrapped opts handler req res = catch_block opts (is_api_route res) req e.
Proof.
  intros opts handler req res e H. unfold wrapped, handler_args in *.
  destruct (is_api_route res); rewrite H; reflexivity.
Qed.

Lemma wrapped_return_app : forall opts handler req v r,
  handler req (ResOther JUndefined) = HReturn r ->
  wrapped opts handler req (ResOther v) =
    if truthy r then mk (Resolved r) [] []
    else mk (Resolved (JResponse 204 [] None)) [] [].
Proof.
  intros opts handler req v r H. unfold wrapped. simpl. rewrite H. reflexivity.
Qed.

Lemma extends_custom_instanceof : forall c,
  extends_star c CCustomError -> cls_inherits_custom c = true.
Proof.
  intros c H. remember CCustomError as q eqn:Hq.
  induction H as [c | ident p q' _ IH]; subst; simpl; auto.
Qed.

Lemma not_extends_custom : forall c,
  ~ extends_star c CCustomError -> cls_inherits_custom c = false.
Proof.
  induction c as [| | ident p IH]; intro Hn; simpl.
  - reflexivity.
  - exfalso. apply Hn. constructor.
  - apply IH. intro Hp. apply Hn. constructor. exact Hp.
Qed.

(** The response status and body do not depend on the logger. *)
Lemma catch_block_logger_irrelevant : forall opts l isApi req e,
  completes (catch_block (with_logger opts l) isApi req e) =
    completes (catch_block opts isApi req e) /\
  sink (catch_block (with_logger opts l) isApi req e) =
    sink (catch_block opts isApi req e).
Proof.
  intros opts l isApi req e. unfold catch_block, with_logger; simpl.
  destruct (classify e _ _) as [statusCode message].
  destruct (get_prop e "name") as [name |]; [| split; reflexivity].
  destruct (formatError opts) as [v | f]; [| destruct (f e req)];
    destruct isApi; try (split; reflexivity);
    destruct (new_Response _ _ _); split; reflexivity.
Qed.

(** A thrown value that is neither a [CustomError] instance nor
    [null]/[undefined] gets [defaultStatusCode] and [defaultMessage]. *)
Lemma unrecognized_collapse : forall opts handler req e name v,
  instanceof_CustomError e = false ->
  get_prop e "name" = Some name ->
  formatError opts = FormatNotFn v ->
  handler req ResSink = HThrow e ->
  sink (wrapped opts handler req ResSink) =
    [SStatus (dflt (defaultStatusCode opts) (JNum 500));
     SJson (envelope (dflt (defaultMessage opts) (JStr DEFAULT_MESSAGE))
                     (js_or name (JStr "Error")))].
Proof.
  intros opts handler req e name v Hi Hn Hf Hh.
  rewrite (wrapped_throw opts handler req ResSink e Hh).
  unfold catch_block, classify. rewrite Hi, Hn, Hf. reflexivity.
Qed.

(** ** Error taxonomy *)

(** C7: every one of the 21 predefined kinds, built without a message,
    has the spec table's default message and status; built with a
    message [m], has message [m] and the same status; its [name] is the
    identifier of its own class, never ["CustomError"]. *)
Theorem C7_predefined_kinds_table : forall k,
  let '(name, status, dmsg) := spec_table k in
  obj_prop (CustomErrors.new_kind k None) "message" = JStr dmsg /\
  obj_prop (CustomErrors.new_kind k None) "statusCode" = JNum status /\
  obj_prop (CustomErrors.new_kind k None) "name" = JStr name /\
  (forall m,
     obj_prop (CustomErrors.new_kind k (Some m)) "message" = JStr m /\
     obj_prop (CustomErrors.new_kind k (Some m)) "statusCode" = JNum status /\
     obj_prop (CustomErrors.new_kind k (Some m)) "name" = JStr name) /\
  name = CustomErrors.kind_ident k /\
  name <> "CustomError".
Proof.
  destruct k; vm_compute;
    (repeat split; first [reflexivity | discriminate]).
Qed.

(** ** The App Router (value-returning) convention on success *)

(** C5: a returned [Response] is forwarded unchanged; a handler that
    returns nothing yields a 204 response with no headers and no body. *)
Theorem C5_app_router_success : forall opts handler req v r,
  handler req (ResOther JUndefined) = HReturn r ->
  (forall status headers body, r = JResponse status headers body ->
     completes (wrapped opts handler req (ResOther v)) = Resolved r) /\
  (r = JUndefined ->
     completes (wrapped opts handler req (ResOther v)) =
       Resolved (JResponse 204 [] None)).
Proof.
  intros opts handler req v r H.
  rewrite (wrapped_return_app opts handler req v r H).
  split.
  - intros status headers body ->. reflexivity.
  - intros ->. reflexivity.
Qed.

Lemma C5_app_router_success_witness :
  let h := fun (_ : jsval) (_ : resarg) => HReturn JUndefined in
  completes (wrapped no_options h JNull (ResOther JNull)) =
    Resolved (JResponse 204 [] None).
Proof.
  intro h.
  apply (proj2 (C5_app_router_success no_options h JNull JNull JUndefined eq_refl)).
  reflexivity.
Defined.

(** C9: every falsy value returned under the App Router convention is
    replaced by the 204 response. *)
Theorem C9_falsy_return_becomes_204 : forall opts handler req v r,
  handler req (ResOther JUndefined) = HReturn r ->
  truthy r = false ->
  wrapped opts handler req (ResOther v) =
    mk (Resolved (JResponse 204 [] None)) [] [].
Proof.
  intros opts handler req v r H Hf.
  rewrite (wrapped_return_app opts handler req v r H), Hf. reflexivity.
Qed.

Lemma C9_falsy_return_becomes_204_witness :
  truthy (JNum 0) = false /\ truthy (JStr "") = false /\
  wrapped no_options (fun _ _ => HReturn (JNum 0)) JNull (ResOther JUndefined) =
    mk (Resolved (JResponse 204 [] None)) [] [].
Proof.
  split; [reflexivity | split; [reflexivity |]].
  apply (C9_falsy_return_becomes_204 no_options (fun _ _ => HReturn (JNum 0))
           JNull JUndefined (JNum 0)); reflexivity.
Defined.

(** ** Failure handling *)

(** C6: a callable logger is called first, with the convention's label and
    the thrown value; whatever it does, throwing included, the response
    (settlement and calls on [res]) is the one a logger that returns
    normally gives. *)
Theorem C6_logger_label_and_swallow : forall opts handler req res e f,
  handler req (handler_args res) = HThrow e ->
  logger opts = LoggerFn f ->
  hd_error (logs (wrapped opts handler req res)) =
    Some (LogCall (if is_api_route res then "API Route Error:" else "Route Error:") e) /\
  completes (wrapped opts handler req res) =
    completes (wrapped (with_logger opts (LoggerFn (fun _ _ => None))) handler req res) /\
  sink (wrapped opts handler req res) =
    sink (wrapped (with_logger opts (LoggerFn (fun _ _ => None))) handler req res).
Proof.
  intros opts handler req res e f Hh Hl.
  rewrite !(wrapped_throw _ handler req res e Hh).
  destruct (catch_block_logger_irrelevant opts (LoggerFn (fun _ _ => None))
              (is_api_route res) req e) as [Hc Hs].
  rewrite Hc, Hs. split; [| split; reflexivity].
  unfold catch_block. rewrite Hl.
  destruct (classify e _ _) as [statusCode message].
  destruct (get_prop e "name") as [name |]; [| reflexivity].
  destruct (formatError opts) as [v | g]; [| destruct (g e req)];
    destruct (is_api_route res); try reflexivity;
    destruct (new_Response _ _ _); reflexivity.
Qed.

Lemma C6_logger_label_and_swallow_witness :
  let opts := with_logger no_options (LoggerFn (fun _ _ => Some (JStr "sink down"))) in
  let h := fun (_ : jsval) (_ : resarg) => HThrow (new_Error "boom") in
  hd_error (logs (wrapped opts h JNull ResSink)) =
    Some (LogCall "API Route Error:" (new_Error "boom")) /\
  completes (wrapped opts h JNull ResSink) =
    completes (wrapped (with_logger opts (LoggerFn (fun _ _ => None))) h JNull ResSink) /\
  sink (wrapped opts h JNull ResSink) =
    sink (wrapped (with_logger opts (LoggerFn (fun _ _ => None))) h JNull ResSink).
Proof.
  intros opts h.
  apply (C6_logger_label_and_swallow opts h JNull ResSink (new_Error "boom")
           (fun _ _ => Some (JStr "sink down"))); reflexivity.
Defined.

(** C8: the App Router scenario of the spec. *)
Theorem C8_app_router_custom_error_scenario : forall req v,
  let h := fun (_ : jsval) (_ : resarg) =>
    HThrow (CustomErrors.new_CustomError (Some "Test custom error.") (JNum 400)
              (JStr "BadRequestError")) in
  completes (errorHandler h no_options req (ResOther v)) =
    Resolved (JResponse 400 [("Content-Type", "application/json")]
      (Some (JObj None [("error", JObj None [("message", JStr "Test custom error.");
                                             ("type", JStr "BadRequestError")])]))).
Proof.
  intros req v h. reflexivity.
Qed.

(** For a thrown value other than [null]/[undefined], [formatError]
    decides the body as the spec says: a callable one's result, the
    minimal envelope when it throws (logged on its own line), the default
    envelope when it is not callable. *)
Lemma format_error_cases : forall opts req e name statusCode message,
  get_prop e "name" = Some name ->
  classify e (dflt (defaultStatusCode opts) (JNum 500))
             (dflt (defaultMessage opts) (JStr DEFAULT_MESSAGE)) = (statusCode, message) ->
  let type := js_or name (JStr "Error") in
  (forall f r, formatError opts = FormatFn f -> f e req = HReturn r ->
     sink (catch_block opts true req e) = [SStatus statusCode; SJson r]) /\
  (forall f ex, formatError opts = FormatFn f -> f e req = HThrow ex ->
     sink (catch_block opts true req e) =
       [SStatus statusCode; SJson (minimal_envelope message type)] /\
     In (ConsoleError "formatError failed:" ex) (logs (catch_block opts true req e))) /\
  (forall v, formatError opts = FormatNotFn v ->
     sink (catch_block opts true req e) =
       [SStatus statusCode; SJson (envelope message type)]).
Proof.
  intros opts req e name statusCode message Hn Hc type.
  unfold catch_block. rewrite Hc, Hn.
  split; [| split].
  - intros f r Hf Hr. rewrite Hf, Hr. reflexivity.
  - intros f ex Hf Hr. rewrite Hf, Hr. split; [reflexivity |].
    simpl. apply in_or_app. right. left. reflexivity.
  - intros v Hf. rewrite Hf. reflexivity.
Qed.

(** C1 (code_bug): [throw undefined] (or a rejection with no reason) gets
    no response at all: reading [error.name] in the [catch] block throws,
    and the wrapped handler rejects. *)
Theorem C1_undefined_throw_rejects : forall req res,
  completes (errorHandler (fun _ _ => HThrow JUndefined) no_options req res) =
    Rejected (read_error JUndefined "name") /\
  sink (errorHandler (fun _ _ => HThrow JUndefined) no_options req res) = [].
Proof.
  intros req res. destruct res; split; reflexivity.
Qed.

(** C2, as stated, fails: a [CustomError] whose kind name is empty is
    reported with type ["Error"], not its kind name. *)
Lemma C2_empty_kind_name_counterexample :
  let e := CustomErrors.new_CustomError (Some "Test custom error.") (JNum 400) (JStr "") in
  obj_prop e "name" = JStr "" /\
  obj_prop e "name" <> JStr "Error" /\
  sink (wrapped no_options (fun _ _ => HThrow e) JNull ResSink) =
    [SStatus (JNum 400);
     SJson (envelope (JStr "Test custom error.") (JStr "Error"))].
Proof.
  split; [reflexivity | split; [discriminate | reflexivity]].
Qed.

(** C2 (amended): for a thrown [CustomError] instance and no callable
    [formatError], the status is its [statusCode], the message its
    [message] or [defaultMessage] when that is empty, and the type its
    [name] when truthy, else ["Error"]; on the App Router this holds for
    a [statusCode] in 200..599 other than 204, 205 and 304. *)
Theorem C2_custom_error_response : forall opts handler req res c msg sc nm v,
  let e := CustomErrors.CustomError_ctor c msg sc nm in
  let dm := dflt (defaultMessage opts) (JStr DEFAULT_MESSAGE) in
  let body := envelope (js_or (obj_prop e "message") dm)
                       (js_or (obj_prop e "name") (JStr "Error")) in
  cls_inherits_custom c = true ->
  formatError opts = FormatNotFn v ->
  handler req (handler_args res) = HThrow e ->
  (is_api_route res = true ->
     sink (wrapped opts handler req res) = [SStatus (obj_prop e "statusCode"); SJson body]) /\
  (is_api_route res = false ->
     forall z, obj_prop e "statusCode" = JNum z -> (200 <= z <= 599)%Z ->
     null_body_status z = false ->
     completes (wrapped opts handler req res) = Resolved (JResponse z json_headers (Some body))).
Proof.
  intros opts handler req res c msg sc nm v e dm body Hc Hf Hh.
  rewrite (wrapped_throw opts handler req res e Hh).
  assert (Hi : instanceof_CustomError e = true) by exact Hc.
  assert (Hn : get_prop e "name" = Some (obj_prop e "name")) by reflexivity.
  unfold catch_block, classify. rewrite Hi, Hn, Hf.
  split.
  - intros ->. reflexivity.
  - intros -> z Hz Hr Hnb. cbn zeta. rewrite Hz.
    unfold new_Response, status_of_init, json_body.
    rewrite Z.mod_small by lia.
    replace ((200 <=? z) && (z <=? 599))%Z with true
      by (symmetry; apply andb_true_iff; split; apply Z.leb_le; lia).
    rewrite Hnb. reflexivity.
Qed.

Lemma C2_custom_error_response_witness :
  let e := CustomErrors.CustomError_ctor CCustomError (Some "Test custom error.")
             (JNum 400) (JStr "BadRequestError") in
  completes (wrapped no_options (fun _ _ => HThrow e) JNull (ResOther JNull)) =
    Resolved (JResponse 400 json_headers
      (Some (envelope (JStr "Test custom error.") (JStr "BadRequestError")))).
Proof.
  intro e.
  apply (proj2 (C2_custom_error_response no_options (fun _ _ => HThrow e) JNull
                  (ResOther JNull) CCustomError (Some "Test custom error.")
                  (JNum 400) (JStr "BadRequestError") JUndefined
                  eq_refl eq_refl eq_refl) eq_refl 400%Z eq_refl);
    [lia | reflexivity].
Defined.

(** C3 (code_bug): the wrapped handler does let a rejection escape.
    [throw null] rejects it under any options and either convention,
    with nothing sent; and on the App Router a [CustomError] whose status
    the [Response] constructor refuses (here 100) rejects it too. *)
Theorem C3_rejections_escape_wrapper :
  (forall opts req res,
     completes (wrapped opts (fun _ _ => HThrow JNull) req res) =
       Rejected (read_error JNull "name") /\
     sink (wrapped opts (fun _ _ => HThrow JNull) req res) = []) /\
  (forall req v,
     exists ex,
     completes (wrapped no_options
       (fun _ _ => HThrow (CustomErrors.new_CustomError (Some "Too early.") (JNum 100) JUndefined))
       req (ResOther v)) = Rejected ex).
Proof.
  split.
  - intros opts req res. destruct res; split; reflexivity.
  - intros req v. eexists. reflexivity.
Qed.

(** C4 (code_bug): with a callable [formatError], [throw null] never
    reaches it: the default envelope is built first, reading
    [error.name] throws, and the wrapped handler rejects with no body
    sent. *)
Theorem C4_formatError_not_reached_on_null : forall req f,
  let opts := {| logger := LoggerDefault; defaultStatusCode := JUndefined;
                 defaultMessage := JUndefined; formatError := FormatFn f |} in
  wrapped opts (fun _ _ => HThrow JNull) req ResSink =
    mk (Rejected (read_error JNull "name")) [] [ConsoleError "API Route Error:" JNull].
Proof.
  intros req f opts. reflexivity.
Qed.

(** C10: classification is by class, not by shape.  An object that is not
    an instance of [CustomError] gets [defaultStatusCode] and
    [defaultMessage] whatever fields it has; an instance of any class that
    extends [CustomError], at any depth, gets its own [statusCode] and
    [message]. *)
Theorem C10_nominal_classification : forall opts handler req v,
  let dsc := dflt (defaultStatusCode opts) (JNum 500) in
  let dm := dflt (defaultMessage opts) (JStr DEFAULT_MESSAGE) in
  formatError opts = FormatNotFn v ->
  (forall p props,
     (p = None \/ exists c, p = Some c /\ ~ extends_star c CCustomError) ->
     handler req ResSink = HThrow (JObj p props) ->
     sink (wrapped opts handler req ResSink) =
       [SStatus dsc; SJson (envelope dm (js_or (assoc "name" props) (JStr "Error")))]) /\
  (forall c props,
     extends_star c CCustomError ->
     handler req ResSink = HThrow (JObj (Some c) props) ->
     sink (wrapped opts handler req ResSink) =
       [SStatus (assoc "statusCode" props);
        SJson (envelope (js_or (assoc "message" props) dm)
                        (js_or (assoc "name" props) (JStr "Error")))]).
Proof.
  intros opts handler req v dsc dm Hf. split.
  - intros p props Hp Hh.
    apply (unrecognized_collapse opts handler req (JObj p props) (assoc "name" props) v);
      [| reflexivity | exact Hf | exact Hh].
    destruct Hp as [-> | [c [-> Hc]]]; [reflexivity |].
    apply not_extends_custom. exact Hc.
  - intros c props Hc Hh.
    rewrite (wrapped_throw opts handler req ResSink _ Hh).
    unfold catch_block, classify. simpl.
    rewrite (extends_custom_instanceof c Hc), Hf. reflexivity.
Qed.

Lemma C10_nominal_classification_witness :
  let shaped := JObj None [("message", JStr "Sensitive."); ("statusCode", JNum 400);
                           ("name", JStr "BadRequestError")] in
  let sub := CSub "PaymentDeclinedError" (CSub "PaymentRequiredError" CCustomError) in
  let props := [("name", JStr "PaymentDeclinedError"); ("statusCode", JNum 402);
                ("message", JStr "Card declined.")] in
  sink (wrapped no_options (fun _ _ => HThrow shaped) JNull ResSink) =
    [SStatus (JNum 500);
     SJson (envelope (JStr DEFAULT_MESSAGE) (JStr "BadRequestError"))] /\
  sink (wrapped no_options (fun _ _ => HThrow (JObj (Some sub) props)) JNull ResSink) =
    [SStatus (JNum 402);
     SJson (envelope (JStr "Card declined.") (JStr "PaymentDeclinedError"))].
Proof.
  intros shaped sub props. split.
  - apply (proj1 (C10_nominal_classification no_options (fun _ _ => HThrow shaped)
                    JNull JUndefined eq_refl) None _ (or_introl eq_refl) eq_refl).
  - apply (proj2 (C10_nominal_classification no_options
                    (fun _ _ => HThrow (JObj (Some sub) props)) JNull JUndefined eq_refl)
                 sub props); [| reflexivity].
    apply ext_step, ext_step, ext_refl.
Defined.

(** ** Further properties of [errorHandler] *)

(** On success under the API Route convention the wrapper resolves to
    [undefined] whatever the handler returned, and neither calls [res] nor
    logs. *)
Theorem api_route_success_outcome : forall opts handler req r,
  handler req ResSink = HReturn r ->
  wrapped opts handler req ResSink = mk (Resolved JUndefined) [] [].
Proof.
  intros opts handler req r H. unfold wrapped. simpl. rewrite H. reflexivity.
Qed.

Lemma api_route_success_outcome_witness :
  wrapped no_options (fun _ _ => HReturn (JStr "ignored")) JNull ResSink =
    mk (Resolved JUndefined) [] [].
Proof.
  apply (api_route_success_outcome no_options _ JNull (JStr "ignored")). reflexivity.
Defined.

(** The options only matter on failure: when the handler returns, the
    outcome is the same for any two option bags, and nothing is logged. *)
Theorem success_ignores_options : forall opts1 opts2 handler req res r,
  handler req (handler_args res) = HReturn r ->
  wrapped opts1 handler req res = wrapped opts2 handler req res /\
  logs (wrapped opts1 handler req res) = [].
Proof.
  intros opts1 opts2 handler req res r H. unfold wrapped, handler_args in *.
  destruct (is_api_route res); rewrite H; [split; reflexivity |].
  destruct (truthy r); split; reflexivity.
Qed.

Lemma success_ignores_options_witness :
  let opts := {| logger := LoggerNotFn JNull; defaultStatusCode := JNum 418;
                 defaultMessage := JStr "x"; formatError := FormatNotFn JNull |} in
  wrapped no_options (fun _ _ => HReturn JNull) JNull (ResOther JUndefined) =
    wrapped opts (fun _ _ => HReturn JNull) JNull (ResOther JUndefined) /\
  logs (wrapped no_options (fun _ _ => HReturn JNull) JNull (ResOther JUndefined)) = [].
Proof.
  intro opts.
  apply (success_ignores_options no_options opts _ JNull (ResOther JUndefined) JNull).
  reflexivity.
Defined.

(** Under the App Router convention the wrapper never calls a response
    object, whatever the handler, options and outcome. *)
Theorem app_router_never_calls_res : forall opts handler req v,
  sink (wrapped opts handler req (ResOther v)) = [].
Proof.
  intros opts handler req v. unfold wrapped. simpl.
  destruct (handler req (ResOther JUndefined)) as [r | e].
  - destruct (truthy r); reflexivity.
  - unfold catch_block.
    destruct (classify _ _ _) as [statusCode message].
    destruct (get_prop e "name") as [name |]; [| reflexivity].
    destruct (formatError opts) as [w | f]; [| destruct (f e req)];
      destruct (new_Response _ _ _); reflexivity.
Qed.

(** Under the API Route convention the wrapper calls [res] either not at
    all, or exactly [status] then [json], once each, and then resolves. *)
Theorem api_route_res_calls_shape : forall opts handler req,
  sink (wrapped opts handler req ResSink) = [] \/
  exists statusCode body,
    sink (wrapped opts handler req ResSink) = [SStatus statusCode; SJson body] /\
    completes (wrapped opts handler req ResSink) = Resolved JUndefined.
Proof.
  intros opts handler req. unfold wrapped. simpl.
  destruct (handler req ResSink) as [r | e]; [left; reflexivity |].
  unfold catch_block.
  destruct (classify _ _ _) as [statusCode message].
  destruct (get_prop e "name") as [name |]; [| left; reflexivity].
  right.
  destruct (formatError opts) as [w | f]; [| destruct (f e req)];
    eexists; eexists; split; reflexivity.
Qed.


(** Throwing any predefined error through an API Route with no callable
    [formatError] sends its fixed status and its class name as type; an
    empty message is replaced by [defaultMessage], not by the kind's own
    default message. *)
Theorem predefined_error_api_route : forall opts handler req k m v,
  let dm := dflt (defaultMessage opts) (JStr DEFAULT_MESSAGE) in
  formatError opts = FormatNotFn v ->
  handler req ResSink = HThrow (CustomErrors.new_kind k m) ->
  let '(name, status, dmsg) := spec_table k in
  sink (wrapped opts handler req ResSink) =
    [SStatus (JNum status); SJson (envelope (reported_message dmsg m dm) (JStr name))].
Proof.
  intros opts handler req k m v dm Hf Hh.
  rewrite (wrapped_throw opts handler req ResSink _ Hh).
  unfold catch_block. rewrite Hf.
  destruct k, m as [s |]; cbn; try reflexivity;
    unfold js_or, truthy; destruct (String.eqb s ""); reflexivity.
Qed.

Lemma predefined_error_api_route_witness :
  sink (wrapped no_options
          (fun _ _ => HThrow (CustomErrors.new_kind CustomErrors.KNotFoundError (Some "")))
          JNull ResSink) =
    [SStatus (JNum 404); SJson (envelope (JStr DEFAULT_MESSAGE) (JStr "NotFoundError"))].
Proof.
  exact (predefined_error_api_route no_options _ JNull CustomErrors.KNotFoundError
           (Some "") JUndefined eq_refl eq_refl).
Defined.

(** Every predefined status is one the [Response] constructor accepts, so
    throwing any predefined error on the App Router (no callable
    [formatError]) resolves to a JSON response with that status. *)
Theorem predefined_error_app_router : forall opts handler req k m v w,
  let dm := dflt (defaultMessage opts) (JStr DEFAULT_MESSAGE) in
  formatError opts = FormatNotFn v ->
  handler req (ResOther JUndefined) = HThrow (CustomErrors.new_kind k m) ->
  let '(name, status, dmsg) := spec_table k in
  completes (wrapped opts handler req (ResOther w)) =
    Resolved (JResponse status json_headers
      (Some (envelope (reported_message dmsg m dm) (JStr name)))).
Proof.
  intros opts handler req k m v w dm Hf Hh.
  rewrite (wrapped_throw opts handler req (ResOther w) _ Hh).
  unfold catch_block. rewrite Hf.
  destruct k, m as [s |]; cbn; try reflexivity;
    unfold js_or, truthy; destruct (String.eqb s ""); reflexivity.
Qed.

Lemma predefined_error_app_router_witness :
  completes (wrapped no_options
     (fun _ _ => HThrow (CustomErrors.new_kind CustomErrors.KServiceUnavailableError None))
     JNull (ResOther JNull)) =
    Resolved (JResponse 503 json_headers
      (Some (envelope (JStr "The service is currently unavailable.")
                      (JStr "ServiceUnavailableError")))).
Proof.
  exact (predefined_error_app_router no_options _ JNull
           CustomErrors.KServiceUnavailableError None JUndefined JNull eq_refl eq_refl).
Defined.







(** When [formatError] throws on an API Route (default logger), the
    response is [status] then [json] of the minimal [{ message, type }]
    object, and [console.error] receives the original error first and the
    formatter's exception second. *)
Theorem api_route_formatError_throws_outcome :
  forall opts handler req e f ex name statusCode message,
  logger opts = LoggerDefault ->
  formatError opts = FormatFn f ->
  get_prop e "name" = Some name ->
  classify e (dflt (defaultStatusCode opts) (JNum 500))
             (dflt (defaultMessage opts) (JStr DEFAULT_MESSAGE)) = (statusCode, message) ->
  f e req = HThrow ex ->
  handler req ResSink = HThrow e ->
  wrapped opts handler req ResSink =
    mk (Resolved JUndefined)
       [SStatus statusCode; SJson (minimal_envelope message (js_or name (JStr "Error")))]
       [ConsoleError "API Route Error:" e; ConsoleError "formatError failed:" ex].
Proof.
  intros opts handler req e f ex name statusCode message Hl Hf Hn Hc Hr Hh.
  rewrite (wrapped_throw opts handler req ResSink e Hh).
  unfold catch_block. rewrite Hl, Hc, Hn, Hf, Hr. reflexivity.
Qed.

Lemma api_route_formatError_throws_outcome_witness :
  let opts := {| logger := LoggerDefault; defaultStatusCode := JUndefined;
                 defaultMessage := JUndefined;
                 formatError := FormatFn (fun _ _ => HThrow (JStr "bad formatter")) |} in
  let e := CustomErrors.new_kind CustomErrors.KConflictError (Some "Version clash.") in
  wrapped opts (fun _ _ => HThrow e) JNull ResSink =
    mk (Resolved JUndefined)
       [SStatus (JNum 409);
        SJson (minimal_envelope (JStr "Version clash.") (JStr "ConflictError"))]
       [ConsoleError "API Route Error:" e; ConsoleError "formatError failed:" (JStr "bad formatter")].
Proof.
  intros opts e.
  apply (api_route_formatError_throws_outcome opts _ JNull e
           (fun _ _ => HThrow (JStr "bad formatter")) (JStr "bad formatter")
           (JStr "ConflictError") (JNum 409) (JStr "Version clash."));
    reflexivity.
Defined.

(** A thrown [null] or [undefined] is still logged, with the convention's
    label, before reading its [name] makes the wrapper reject; nothing is
    sent and [formatError] is not consulted. *)
Theorem nullish_throw_logged_then_rejected : forall opts handler req res e,
  e = JNull \/ e = JUndefined ->
  handler req (handler_args res) = HThrow e ->
  wrapped opts handler req res =
    mk (Rejected (read_error e "name")) []
       (invoke_logger (logger opts)
          (if is_api_route res then "API Route Error:" else "Route Error:") e).
Proof.
  intros opts handler req res e He Hh.
  rewrite (wrapped_throw opts handler req res e Hh).
  destruct He as [-> | ->]; reflexivity.
Qed.

Lemma nullish_throw_logged_then_rejected_witness :
  wrapped no_options (fun _ _ => HThrow JUndefined) JNull (ResOther JUndefined) =
    mk (Rejected (read_error JUndefined "name")) [] [ConsoleError "Route Error:" JUndefined].
Proof.
  apply (nullish_throw_logged_then_rejected no_options _ JNull (ResOther JUndefined)
           JUndefined (or_intror eq_refl) eq_refl).
Defined.

(** The status and message of an unrecognized error are hidden, but its
    [name] is not: a non-empty string [name] is sent as the type. *)
Theorem unrecognized_error_name_exposed : forall opts handler req e s v,
  instanceof_CustomError e = false ->
  get_prop e "name" = Some (JStr s) ->
  s <> "" ->
  formatError opts = FormatNotFn v ->
  handler req ResSink = HThrow e ->
  sink (wrapped opts handler req ResSink) =
    [SStatus (dflt (defaultStatusCode opts) (JNum 500));
     SJson (envelope (dflt (defaultMessage opts) (JStr DEFAULT_MESSAGE)) (JStr s))].
Proof.
  intros opts handler req e s v Hi Hn Hs Hf Hh.
  rewrite (unrecognized_collapse opts handler req e (JStr s) v Hi Hn Hf Hh).
  unfold js_or, truthy.
  destruct (String.eqb s "") eqn:E; [apply String.eqb_eq in E; contradiction |].
  reflexivity.
Qed.

Lemma unrecognized_error_name_exposed_witness :
  let e := JObj (Some (CSub "TypeError" CError))
             [("name", JStr "TypeError"); ("message", JStr "x is not a function")] in
  sink (wrapped no_options (fun _ _ => HThrow e) JNull ResSink) =
    [SStatus (JNum 500); SJson (envelope (JStr DEFAULT_MESSAGE) (JStr "TypeError"))].
Proof.
  intro e.
  apply (unrecognized_error_name_exposed no_options _ JNull e "TypeError" JUndefined);
    try reflexivity; discriminate.
Defined.
